(** * DataFetching: the fetch / store / filter flow of the product list

    A shallow embedding of the three TypeScript sources:

    - [src/components/PostsList.tsx]: the [PostsList] component
      ([fetchProducts], [handleSearch], the two values [renderProduct]
      derives for a card, and what the component shows);
    - the [AppContent] screen with the reload button ([fetchPosts], whole and
      as the two stretches of an asynchronous call, [handleReload], and what
      the screen shows);
    - [src/app/index.tsx], which only mounts [PostsList] and has no logic.

    React state is a record, a component function is an action of a small
    state-and-exception monad, and what the network delivers is an input of
    the action. The components are embedded on data of the declared types,
    and the two fetches once more on a response body of any shape
    ([Wire]). *)

From Stdlib Require Import Bool Arith Lia List String Ascii ZArith QArith Qabs Lqa
  Floats.
Import ListNotations.
Local Open Scope nat_scope.
Local Open Scope string_scope.
Local Open Scope list_scope.

(** ** JavaScript run-time behaviour the components rely on *)

(** What a [throw] or a rejected promise carries. The components never look
    at the value they catch, only at the fact that something was thrown. *)
Inductive exn : Type :=
| TypeError     (* a property read or method call on undefined or null *)
| NetworkError  (* fetch rejected: the request did not complete *)
| SyntaxError.  (* response.json() rejected: the body is not JSON *)

Inductive result (A : Type) : Type :=
| Ok (a : A)
| Throw (e : exn).
Arguments Ok {A} a.
Arguments Throw {A} e.

(** [xs.filter(cb)]: the callback runs on every element from left to right;
    an exception of the callback ends the pass and leaves no array. *)
Fixpoint Array_filter {A : Type} (cb : A -> result bool) (xs : list A)
  : result (list A) :=
  match xs with
  | [] => Ok []
  | x :: rest =>
      match cb x with
      | Throw e => Throw e
      | Ok keep =>
          match Array_filter cb rest with
          | Throw e => Throw e
          | Ok kept => Ok (if keep then x :: kept else kept)
          end
      end
  end.

(** [xs.slice(start, stop)] for indices that are not negative. *)
Definition Array_slice {A : Type} (start stop : nat) (xs : list A) : list A :=
  firstn (stop - start) (skipn start xs).

(** A string is the sequence of its code units, here a [string] of the
    Standard Library. [s.includes(sub)]: [sub] occurs in [s] at some
    position. *)
Fixpoint includes (s sub : string) : bool :=
  if String.prefix sub s then true
  else match s with
       | EmptyString => false
       | String _ rest => includes rest sub
       end.

(** A [string | null] used as a condition: [null] and the empty string are
    falsy. [Some] of the string when it is truthy. *)
Definition truthy (e : option string) : option string :=
  match e with
  | Some s => if String.eqb s "" then None else Some s
  | None => None
  end.

(** [s.toLowerCase()] is the engine's Unicode case mapping. The development
    is parametric in it: every theorem about the filter holds for whatever
    function the engine supplies, of which it uses one fact, that the empty
    string has no letter to map. *)
Class CaseMapping : Type := {
  toLowerCase : string -> string;
  toLowerCase_empty : toLowerCase "" = ""
}.

(** The mapping on ASCII letters, for running the model on examples. *)
Definition lower_ascii (c : ascii) : ascii :=
  let n := nat_of_ascii c in
  if ((65 <=? n) && (n <=? 90))%nat then ascii_of_nat (n + 32) else c.

Fixpoint lower_string (s : string) : string :=
  match s with
  | EmptyString => EmptyString
  | String c rest => String (lower_ascii c) (lower_string rest)
  end.

Definition AsciiCase : CaseMapping :=
  {| toLowerCase := lower_string; toLowerCase_empty := eq_refl |}.

(** ** Numbers

    A JavaScript number is an IEEE 754 binary64 value. [renderProduct] uses
    four operations and two literals; they are an interface with two
    instances: [binary64], which is what the engine computes, and [exact],
    the rationals with one extra value for the quotients that are no
    rational (a division by zero gives NaN or an infinity in binary64). *)
Class Number (num : Type) : Type := {
  of_nat : nat -> num;
  add : num -> num -> num;
  sub : num -> num -> num;
  mul : num -> num -> num;
  div : num -> num -> num
}.

Declare Scope num_scope.
Delimit Scope num_scope with num.
Infix "+" := add : num_scope.
Infix "-" := sub : num_scope.
Infix "*" := mul : num_scope.
Infix "/" := div : num_scope.

#[global] Instance binary64 : Number float := {|
  of_nat := fun n => PrimFloat.of_uint63 (Uint63.of_Z (Z.of_nat n));
  add := PrimFloat.add;
  sub := PrimFloat.sub;
  mul := PrimFloat.mul;
  div := PrimFloat.div
|}.

Definition lift2 (f : Q -> Q -> Q) (a b : option Q) : option Q :=
  match a, b with
  | Some x, Some y => Some (f x y)
  | _, _ => None
  end.

Definition exact_div (a b : option Q) : option Q :=
  match a, b with
  | Some x, Some y => if Qeq_bool y 0 then None else Some (x / y)%Q
  | _, _ => None
  end.

#[global] Instance exact : Number (option Q) := {|
  of_nat := fun n => Some (inject_Z (Z.of_nat n));
  add := lift2 Qplus;
  sub := lift2 Qminus;
  mul := lift2 Qmult;
  div := exact_div
|}.

(** ** Data model *)

Record Review (num : Type) : Type := { rating : num }.
Arguments rating {num} _.

(** Modelled from the spec: the [Product] type of [src/types/types], which
    is not among the sources. The fields are those of the item objects of
    the endpoint (section 6 of the specification), which are also the ones
    [renderProduct] reads. The objects come straight from the parsed
    response, so a field the response leaves out is [undefined] at run
    time: [title], which [handleSearch] reads, and [reviews], which
    [renderProduct] tests, are options, with [None] for a missing field. *)
Record Product (num : Type) : Type := {
  id : num;
  title : option string;
  brand : string;
  price : num;
  discountPercentage : num;
  category : string;
  description : string;
  stock : num;
  reviews : option (list (Review num));
  warrantyInformation : string;
  shippingInformation : string;
  image : string
}.
Arguments id {num} _.
Arguments title {num} _.
Arguments brand {num} _.
Arguments price {num} _.
Arguments discountPercentage {num} _.
Arguments category {num} _.
Arguments description {num} _.
Arguments stock {num} _.
Arguments reviews {num} _.
Arguments warrantyInformation {num} _.
Arguments shippingInformation {num} _.
Arguments image {num} _.

(** An item that conforms to the declared type has a title. *)
Definition titled {num : Type} (item : Product num) : Prop :=
  title item <> None.

(** Modelled from the spec: the list the data context holds before any
    fetch. The provider, [src/context/DataContext], is not among the
    sources; the specification gives the catalog as empty at startup. *)
Definition initialStore {num : Type} : list (Product num) := [].

(** ** What the network delivers *)

Module Json.
(** The parsed body as far as the components look at it: the [products]
    field, [None] when the body has no such field, and otherwise the array
    of items the endpoint documents. *)
Record Payload (num : Type) : Type := {
  products : option (list (Product num))
}.
Arguments products {num} _.
End Json.

(** The object [fetch] resolves to. [json] is the outcome of
    [response.json()]: it rejects on a body that is not JSON, and resolves
    to [None] for the body [null]. The components never read the status
    code, so a reply with a failure status is a [Response] like any other,
    whose body carries what the server sent with the failure. *)
Record Response (num : Type) : Type := {
  json : result (option (Json.Payload num))
}.
Arguments json {num} _.

(** The outcome of [fetch(url)]: it rejects when the request does not
    complete. *)
Definition Fetched (num : Type) : Type := result (Response num).

(** ** A monad for component code: state that survives a throw *)

Section Monad.
Context {S : Type}.

Definition M (A : Type) : Type := S -> result A * S.

Definition ret {A : Type} (a : A) : M A := fun s => (Ok a, s).

Definition bind {A B : Type} (m : M A) (k : A -> M B) : M B :=
  fun s =>
    match m s with
    | (Ok a, s') => k a s'
    | (Throw e, s') => (Throw e, s')
    end.

(** [await p], and any expression that may throw. *)
Definition await {A : Type} (p : result A) : M A := fun s => (p, s).

Definition gets {A : Type} (f : S -> A) : M A := fun s => (Ok (f s), s).

Definition modify (f : S -> S) : M unit := fun s => (Ok tt, f s).

(** [try { body } catch (e) { handler }] *)
Definition try_catch {A : Type} (body : M A) (handler : exn -> M A) : M A :=
  fun s =>
    match body s with
    | (Ok a, s') => (Ok a, s')
    | (Throw e, s') => handler e s'
    end.

(** [try { body } finally { cleanup }] *)
Definition try_finally {A : Type} (body : M A) (cleanup : M unit) : M A :=
  fun s =>
    match body s with
    | (r, s') =>
        match cleanup s' with
        | (Ok _, s'') => (r, s'')
        | (Throw e, s'') => (Throw e, s'')
        end
    end.

Definition exec {A : Type} (m : M A) (s : S) : S := snd (m s).
Definition eval {A : Type} (m : M A) (s : S) : result A := fst (m s).
End Monad.
Arguments M S A : clear implicits.

Declare Scope monad_scope.
Delimit Scope monad_scope with monad.
Notation "x <- m ;; k" := (bind m (fun x => k))
  (at level 61, m at next level, right associativity) : monad_scope.
Notation "m ;; k" := (bind m (fun _ => k))
  (at level 61, right associativity) : monad_scope.
Local Open Scope monad_scope.

(** ** [src/components/PostsList.tsx] *)

Module PostsList.
Section Component.
Context {num : Type}.

(** The state the component works on: [products] is the list held by the
    data context, the rest are the component's own [useState] cells. *)
Record State : Type := {
  products : list (Product num);
  loading : bool;
  error : option string;
  searchTerm : string;
  filteredProducts : list (Product num)
}.

Definition setProducts (v : list (Product num)) : M State unit :=
  modify (fun st => {| products := v; loading := loading st;
                       error := error st; searchTerm := searchTerm st;
                       filteredProducts := filteredProducts st |}).

Definition setLoading (v : bool) : M State unit :=
  modify (fun st => {| products := products st; loading := v;
                       error := error st; searchTerm := searchTerm st;
                       filteredProducts := filteredProducts st |}).

Definition setError (v : option string) : M State unit :=
  modify (fun st => {| products := products st; loading := loading st;
                       error := v; searchTerm := searchTerm st;
                       filteredProducts := filteredProducts st |}).

Definition setSearchTerm (v : string) : M State unit :=
  modify (fun st => {| products := products st; loading := loading st;
                       error := error st; searchTerm := v;
                       filteredProducts := filteredProducts st |}).

Definition setFilteredProducts (v : list (Product num)) : M State unit :=
  modify (fun st => {| products := products st; loading := loading st;
                       error := error st; searchTerm := searchTerm st;
                       filteredProducts := v |}).

(** The state of the first render: the initial values of lines 8 to 11,
    and the list the data context starts with. *)
Definition mount : State :=
  {| products := initialStore; loading := true; error := None;
     searchTerm := ""; filteredProducts := [] |}.

(** [data && data.products]: [Some] exactly when the test is truthy. An
    array is truthy even when it is empty. *)
Definition data_products (data : option (Json.Payload num))
  : option (list (Product num)) :=
  match data with
  | Some d => Json.products d
  | None => None
  end.

(** Lines 15 to 34. [net] is what [fetch] delivers. *)
Definition fetchProducts (net : Fetched num) : M State unit :=
  try_catch
    (response <- await net ;;
     data <- await (json response) ;;
     match data_products data with
     | Some ps =>
         setProducts ps ;;
         setFilteredProducts ps ;;
         setLoading false
     | None =>
         setError (Some "No products found.") ;;
         setLoading false
     end)
    (fun _ =>
       setError (Some "Failed to load products.") ;;
       setLoading false).

(** What the component returns (lines 96 to 123), without the styling:
    the text in the search bar, and below it one of three things. *)
Inductive Body : Type :=
| ActivityIndicator
| ErrorText (message : string)
| FlatList (data : list (Product num)).

Record Screen : Type := {
  searchBar : string;
  body : Body
}.

Definition render (st : State) : Screen :=
  {| searchBar := searchTerm st;
     body :=
       if loading st then ActivityIndicator
       else match truthy (error st) with
            | Some message => ErrorText message
            | None =>
                if Nat.eqb (List.length (filteredProducts st)) 0
                then ErrorText "No products found."
                else FlatList (filteredProducts st)
            end |}.

Context {CM : CaseMapping}.

(** The callback of line 46: [product.title.toLowerCase()] throws when the
    title is [undefined]. *)
Definition title_includes (text : string) (product : Product num)
  : result bool :=
  match title product with
  | None => Throw TypeError
  | Some t => Ok (includes (toLowerCase t) (toLowerCase text))
  end.

(** Lines 40 to 50. *)
Definition handleSearch (text : string) : M State unit :=
  setSearchTerm text ;;
  products <- gets products ;;
  if String.eqb text "" then
    setFilteredProducts products
  else
    filtered <- await (Array_filter (title_includes text) products) ;;
    setFilteredProducts filtered.

(** The list on display after [handleSearch text]. *)
Definition visible (text : string) (st : State)
  : result (list (Product num)) :=
  eval (handleSearch text ;; gets filteredProducts) st.

(** The filter as a function of the stored list and the query: the list
    [handleSearch] puts on display when the store holds [items]. *)
Definition searchResult (items : list (Product num)) (text : string)
  : result (list (Product num)) :=
  visible text (exec (setProducts items) mount).

(** The user changes the text of the search bar several times: one call
    of [handleSearch] per change (line 105). A call that throws does not
    keep the later ones from running. *)
Definition typing (texts : list string) (st : State) : State :=
  fold_left (fun s text => exec (handleSearch text) s) texts st.

Context {N : Number num}.
Local Open Scope num_scope.

(** Line 54. *)
Definition discountedPrice (item : Product num) : num :=
  price item - price item * (discountPercentage item / of_nat 100).

(** Line 55. [item.reviews] is truthy whenever the field is there, also
    for an empty array. *)
Definition averageRating (item : Product num) : num :=
  match reviews item with
  | Some rs =>
      fold_left (fun acc review => acc + rating review) rs (of_nat 0)
      / of_nat (List.length rs)
  | None => of_nat 0
  end.
End Component.
Arguments State num : clear implicits.
End PostsList.

(** ** The screen with the reload button ([AppContent]) *)

Module AppContent.
Section Component.
Context {num : Type}.

Record State : Type := {
  posts : list (Product num);
  search : string;
  loading : bool;
  error : option string
}.

Definition setPosts (v : list (Product num)) : M State unit :=
  modify (fun st => {| posts := v; search := search st;
                       loading := loading st; error := error st |}).

Definition setSearch (v : string) : M State unit :=
  modify (fun st => {| posts := posts st; search := v;
                       loading := loading st; error := error st |}).

Definition setLoading (v : bool) : M State unit :=
  modify (fun st => {| posts := posts st; search := search st;
                       loading := v; error := error st |}).

Definition setError (v : option string) : M State unit :=
  modify (fun st => {| posts := posts st; search := search st;
                       loading := loading st; error := v |}).

(** The state of the first render: the initial values of lines 30 to 32,
    and the list the data context starts with. *)
Definition mount : State :=
  {| posts := initialStore; search := ""; loading := false; error := None |}.

(** [json.products] (line 42): reading a property of [null] throws. *)
Definition get_products (data : option (Json.Payload num))
  : result (option (list (Product num))) :=
  match data with
  | None => Throw TypeError
  | Some d => Ok (Json.products d)
  end.

(** [products.slice(0, 30)] (line 43): calling a method of [undefined]
    throws. *)
Definition slice_products (products : option (list (Product num)))
  : result (list (Product num)) :=
  match products with
  | None => Throw TypeError
  | Some ps => Ok (Array_slice 0 30 ps)
  end.

(** Lines 36 to 50. *)
Definition fetchPosts (net : Fetched num) : M State unit :=
  setLoading true ;;
  setError None ;;
  try_finally
    (try_catch
       (response <- await net ;;
        data <- await (json response) ;;
        products <- await (get_products data) ;;
        sliced <- await (slice_products products) ;;
        setPosts sliced)
       (fun _ => setError (Some "Failed to fetch products. Please try again.")))
    (setLoading false).

Definition handleReload (net : Fetched num) : M State unit :=
  fetchPosts net.

(** What the component returns (lines 60 to 89), without the styling. *)

(** The value of [error && <Text>{error}</Text>]: a falsy [error] itself,
    or the line of text. *)
Inductive Banner : Type :=
| Null
| EmptyText
| ErrorLine (message : string).

(** Below the banner: the indicator, or the list component with the props
    it is given. *)
Inductive Main : Type :=
| ActivityIndicator
| PostsListWith (searchQuery : string) (posts : list (Product num)).

Record Screen : Type := {
  searchBar : string;
  banner : Banner;
  main : Main
}.

Definition render (st : State) : Screen :=
  {| searchBar := search st;
     banner :=
       match error st with
       | None => Null
       | Some message =>
           if String.eqb message "" then EmptyText else ErrorLine message
       end;
     main :=
       if loading st then ActivityIndicator
       else PostsListWith (search st) (posts st) |}.

(** [fetchPosts] is asynchronous. It runs up to [await fetch(...)] when it
    is called, and goes on when the response has arrived and its body has
    been read, or when one of the two promises is rejected. No line
    touches the state between the two awaits, so a call is two stretches
    that each run without interruption, and other handlers, and stretches
    of other calls, may run between them: the button has no guard against
    a call that is still in flight. *)

(** Lines 37 and 38: up to the first await. *)
Definition fetchPosts_begin : M State unit :=
  setLoading true ;;
  setError None.

(** Lines 39 to 49, from the moment the outcome [net] of the request is
    known. *)
Definition fetchPosts_settle (net : Fetched num) : M State unit :=
  try_finally
    (try_catch
       (response <- await net ;;
        data <- await (json response) ;;
        products <- await (get_products data) ;;
        sliced <- await (slice_products products) ;;
        setPosts sliced)
       (fun _ => setError (Some "Failed to fetch products. Please try again.")))
    (setLoading false).

(** What happens to the screen: the reload button is pressed (line 84; the
    effect of line 53 does the same on the first render), a request that
    is in flight settles with its outcome, the text of the search bar
    changes (line 67). *)
Inductive Event : Type :=
| Press
| Settle (net : Fetched num)
| ChangeText (text : string).

Definition handle (ev : Event) : M State unit :=
  match ev with
  | Press => fetchPosts_begin
  | Settle net => fetchPosts_settle net
  | ChangeText text => setSearch text
  end.

(** The events in the order in which they happen. Requests may settle in
    any order, whatever the order in which they were started. *)
Definition run (events : list Event) (st : State) : State :=
  fold_left (fun s ev => exec (handle ev) s) events st.
End Component.
Arguments State num : clear implicits.
Arguments Event num : clear implicits.
End AppContent.

(** ** The two fetches on a body of any shape

    [response.json()] gives whatever JSON the server sent, and neither
    component checks its shape before storing it. Here the [products]
    field of the body is any JavaScript value, the stores hold whatever
    the setters are given, and the reply carries its status code, which no
    line reads. The components above are these ones on bodies of the
    declared shape (see [fetchProducts_on_wire] and [fetchPosts_on_wire]). *)

Module Wire.

(** The value of [data.products]: [Undefined] when the body has no such
    field, an array of items, or a value of another shape. *)
Inductive value (num : Type) : Type :=
| Undefined
| Null
| Boolean (b : bool)
| Number (n : float)
| Text (s : string)
| Items (items : list (Product num))
| Object.
Arguments Undefined {num}.
Arguments Null {num}.
Arguments Boolean {num} b.
Arguments Number {num} n.
Arguments Text {num} s.
Arguments Items {num} items.
Arguments Object {num}.

(** A value used as a condition: [undefined], [null], [false], zero, NaN
    and the empty string are falsy, everything else is truthy. *)
Definition truthy_value {num : Type} (v : value num) : bool :=
  match v with
  | Undefined | Null => false
  | Boolean b => b
  | Number n => PrimFloat.ltb n 0 || PrimFloat.ltb 0 n
  | Text s => negb (String.eqb s "")
  | Items _ | Object => true
  end.

(** [v.slice(0, 30)]: arrays and strings have the method; a call on any
    other value throws. *)
Definition slice {num : Type} (v : value num) : result (value num) :=
  match v with
  | Items items => Ok (Items (Array_slice 0 30 items))
  | Text s => Ok (Text (String.substring 0 30 s))
  | _ => Throw TypeError
  end.

Module Json.
Record Payload (num : Type) : Type := {
  products : value num
}.
Arguments products {num} _.
End Json.

(** The object [fetch] resolves to, with the status code of the reply. A
    body that is a number, a string or a boolean has no [products] field
    either: it is a [Payload] whose field is [Undefined]. *)
Record Response (num : Type) : Type := {
  status : nat;
  json : result (option (Json.Payload num))
}.
Arguments status {num} _.
Arguments json {num} _.

Definition Fetched (num : Type) : Type := result (Response num).

(** A reply with the given status whose body has the given [products]
    field. *)
Definition body {num : Type} (code : nat) (v : value num) : Fetched num :=
  Ok {| status := code; json := Ok (Some {| Json.products := v |}) |}.

(** The request did not complete, the body is not JSON, the body is
    [null], or the body has no [products] field. *)
Definition no_list {num : Type} (net : Fetched num) : bool :=
  match net with
  | Throw _ => true
  | Ok response =>
      match json response with
      | Throw _ => true
      | Ok None => true
      | Ok (Some d) =>
          match Json.products d with
          | Undefined => true
          | _ => false
          end
      end
  end.

Module PostsList.
Section Component.
Context {num : Type}.

Record State : Type := {
  products : value num;
  loading : bool;
  error : option string;
  searchTerm : string;
  filteredProducts : value num
}.

Definition setProducts (v : value num) : M State unit :=
  modify (fun st => {| products := v; loading := loading st;
                       error := error st; searchTerm := searchTerm st;
                       filteredProducts := filteredProducts st |}).

Definition setLoading (v : bool) : M State unit :=
  modify (fun st => {| products := products st; loading := v;
                       error := error st; searchTerm := searchTerm st;
                       filteredProducts := filteredProducts st |}).

Definition setError (v : option string) : M State unit :=
  modify (fun st => {| products := products st; loading := loading st;
                       error := v; searchTerm := searchTerm st;
                       filteredProducts := filteredProducts st |}).

Definition setFilteredProducts (v : value num) : M State unit :=
  modify (fun st => {| products := products st; loading := loading st;
                       error := error st; searchTerm := searchTerm st;
                       filteredProducts := v |}).

(** [data && data.products]: [Some] of the field exactly when the test is
    truthy. *)
Definition data_products (data : option (Json.Payload num))
  : option (value num) :=
  match data with
  | Some d =>
      if truthy_value (Json.products d) then Some (Json.products d) else None
  | None => None
  end.

(** Lines 15 to 34 of [src/components/PostsList.tsx]. *)
Definition fetchProducts (net : Fetched num) : M State unit :=
  try_catch
    (response <- await net ;;
     data <- await (json response) ;;
     match data_products data with
     | Some v =>
         setProducts v ;;
         setFilteredProducts v ;;
         setLoading false
     | None =>
         setError (Some "No products found.") ;;
         setLoading false
     end)
    (fun _ =>
       setError (Some "Failed to load products.") ;;
       setLoading false).
End Component.
Arguments State num : clear implicits.
End PostsList.

Module AppContent.
Section Component.
Context {num : Type}.

Record State : Type := {
  posts : value num;
  search : string;
  loading : bool;
  error : option string
}.

Definition setPosts (v : value num) : M State unit :=
  modify (fun st => {| posts := v; search := search st;
                       loading := loading st; error := error st |}).

Definition setLoading (v : bool) : M State unit :=
  modify (fun st => {| posts := posts st; search := search st;
                       loading := v; error := error st |}).

Definition setError (v : option string) : M State unit :=
  modify (fun st => {| posts := posts st; search := search st;
                       loading := loading st; error := v |}).

(** [json.products] (line 42): reading a property of [null] throws. *)
Definition get_products (data : option (Json.Payload num))
  : result (value num) :=
  match data with
  | None => Throw TypeError
  | Some d => Ok (Json.products d)
  end.

(** Lines 36 to 50 of the screen with the reload button. *)
Definition fetchPosts (net : Fetched num) : M State unit :=
  setLoading true ;;
  setError None ;;
  try_finally
    (try_catch
       (response <- await net ;;
        data <- await (json response) ;;
        products <- await (get_products data) ;;
        sliced <- await (slice products) ;;
        setPosts sliced)
       (fun _ => setError (Some "Failed to fetch products. Please try again.")))
    (setLoading false).
End Component.
Arguments State num : clear implicits.
End AppContent.

End Wire.

(** *** Bodies and states of the declared shape, on the wire *)

Definition wire_field {num : Type} (field : option (list (Product num)))
  : Wire.value num :=
  match field with
  | Some items => Wire.Items items
  | None => Wire.Undefined
  end.

Definition wire_fetched {num : Type} (code : nat) (net : Fetched num)
  : Wire.Fetched num :=
  match net with
  | Throw e => Throw e
  | Ok response =>
      Ok {| Wire.status := code;
            Wire.json :=
              match json response with
              | Throw e => Throw e
              | Ok None => Ok None
              | Ok (Some d) =>
                  Ok (Some {| Wire.Json.products :=
                                wire_field (Json.products d) |})
              end |}
  end.

Definition wire_list_state {num : Type} (st : PostsList.State num)
  : Wire.PostsList.State num :=
  {| Wire.PostsList.products := Wire.Items (PostsList.products st);
     Wire.PostsList.loading := PostsList.loading st;
     Wire.PostsList.error := PostsList.error st;
     Wire.PostsList.searchTerm := PostsList.searchTerm st;
     Wire.PostsList.filteredProducts :=
       Wire.Items (PostsList.filteredProducts st) |}.

Definition wire_screen_state {num : Type} (st : AppContent.State num)
  : Wire.AppContent.State num :=
  {| Wire.AppContent.posts := Wire.Items (AppContent.posts st);
     Wire.AppContent.search := AppContent.search st;
     Wire.AppContent.loading := AppContent.loading st;
     Wire.AppContent.error := AppContent.error st |}.

(** ** Sample data for running the model *)

(** An item with the given title, price, discount and reviews. *)
Definition sample {num : Type} {N : Number num} (name : option string)
  (cost discount : num) (rs : option (list (Review num))) : Product num :=
  {| id := of_nat 1; title := name; brand := "Apple"; price := cost;
     discountPercentage := discount; category := "smartphones";
     description := "An apple mobile"; stock := of_nat 94; reviews := rs;
     warrantyInformation := "1 year warranty";
     shippingInformation := "Ships in 1 month"; image := "thumbnail.png" |}.

Definition named (name : string) : Product float :=
  sample (Some name) 549%float 12.5%float None.

Definition unnamed : Product float :=
  sample None 549%float 12.5%float None.

(** The stored titles of the search scenario of the specification. *)
Definition phones : list (Product float) :=
  [named "iPhone 9"; named "Samsung Galaxy"; named "Huawei Phone"].

(** A response whose body has the given [products] field. *)
Definition reply {num : Type} (field : option (list (Product num)))
  : Fetched num :=
  Ok {| json := Ok (Some {| Json.products := field |}) |}.

Definition unrated : Product float :=
  sample (Some "iPhone 9") 549%float 12.5%float (Some []).

(** ** Vocabulary of the properties *)

(** [sub] occurs in [s]: some text before it and some text after it make
    up [s]. *)
Definition occurs (sub s : string) : Prop :=
  exists before after : string, s = (before ++ sub ++ after)%string.

(** [xs] is [ys] with some elements left out, the others in place. *)
Inductive subsequence {A : Type} : list A -> list A -> Prop :=
| subsequence_end : subsequence [] []
| subsequence_keep x xs ys : subsequence xs ys -> subsequence (x :: xs) (x :: ys)
| subsequence_drop y xs ys : subsequence xs ys -> subsequence xs (y :: ys).

(** The item has a name, and the lower-cased query occurs in the
    lower-cased name. *)
Definition name_contains {num : Type} {CM : CaseMapping}
  (query : string) (item : Product num) : Prop :=
  exists t : string,
    title item = Some t /\ occurs (toLowerCase query) (toLowerCase t).

(** The sum of the ratings, as a rational. *)
Definition total (ratings : list Q) : Q := fold_right Qplus 0%Q ratings.

(** A review with an exact rating. *)
Definition rated (q : Q) : Review (option Q) := {| rating := Some q |}.

(** The request did not complete, or the body is not JSON: one of the two
    promises is rejected. *)
Definition rejected {num : Type} (net : Fetched num) : bool :=
  match net with
  | Throw _ => true
  | Ok response =>
      match json response with
      | Throw _ => true
      | Ok _ => false
      end
  end.

(** The list on display is the filter of the stored list by the text in
    the search bar. *)
Definition in_sync {num : Type} {CM : CaseMapping}
  (st : PostsList.State num) : Prop :=
  PostsList.searchResult (PostsList.products st) (PostsList.searchTerm st)
  = Ok (PostsList.filteredProducts st).

(** The decision of line 46 on an item, [false] for an item without a
    title. *)
Definition name_matches {num : Type} {CM : CaseMapping}
  (query : string) (item : Product num) : bool :=
  match title item with
  | Some t => includes (toLowerCase t) (toLowerCase query)
  | None => false
  end.

(** A fetch fails when the request does not complete, when the body is not
    JSON, and when the parsed body has no [products] field (which is what a
    reply with a failure status carries). *)
Definition fetch_fails {num : Type} (net : Fetched num) : bool :=
  match net with
  | Throw _ => true
  | Ok response =>
      match json response with
      | Throw _ => true
      | Ok None => true
      | Ok (Some d) =>
          match Json.products d with
          | None => true
          | Some _ => false
          end
      end
  end.

(** The settlements of a list of events all fail. *)
Definition settlements_fail {num : Type}
  (events : list (AppContent.Event num)) : Prop :=
  Forall (fun ev => match ev with
                    | AppContent.Settle net => fetch_fails net = true
                    | _ => True
                    end) events.








(** * Properties *)

(** ** Strings *)

Lemma prefix_occurs_at_start (p s : string) :
  String.prefix p s = true <-> exists rest : string, s = (p ++ rest)%string.
Proof.
  revert s. induction p as [|a p IH]; intros s; simpl.
  - destruct s; split; intros _; try reflexivity; eexists; reflexivity.
  - destruct s as [|b s]; simpl.
    + split; [discriminate | intros [rest H]; discriminate].
    + destruct (ascii_dec a b) as [->|Hab].
      * rewrite IH. split; intros [rest H]; exists rest.
        -- now rewrite H.
        -- now inversion H.
      * split; [discriminate | intros [rest H]; inversion H; congruence].
Qed.

Lemma includes_unfold (s sub : string) :
  includes s sub =
  String.prefix sub s
  || match s with
     | EmptyString => false
     | String _ rest => includes rest sub
     end.
Proof.
  destruct s; unfold includes; fold includes;
    destruct (String.prefix sub _); reflexivity.
Qed.

Lemma includes_occurs (s sub : string) :
  includes s sub = true <-> occurs sub s.
Proof.
  unfold occurs. induction s as [|c s IH];
    rewrite includes_unfold, orb_true_iff, prefix_occurs_at_start.
  - split.
    + intros [[rest H] | H]; [|discriminate]. exists "", rest. exact H.
    + intros (before & after & H). left.
      destruct before; [|discriminate]. eauto.
  - rewrite IH. split.
    + intros [[rest H] | (before & after & H)].
      * exists "", rest. exact H.
      * exists (String c before), after. simpl. now rewrite H.
    + intros (before & after & H). destruct before as [|b before].
      * left. eauto.
      * right. simpl in H. inversion H; subst. eauto.
Qed.

Lemma includes_empty (s : string) : includes s "" = true.
Proof. apply includes_occurs. exists "", s. reflexivity. Qed.

(** ** Subsequences *)

Lemma subsequence_refl {A : Type} (xs : list A) : subsequence xs xs.
Proof. induction xs; constructor; assumption. Qed.


Lemma subsequence_nil {A : Type} (ys : list A) : subsequence [] ys.
Proof. induction ys; constructor; assumption. Qed.



(** ** [Array_filter] *)

Section ArrayFilter.
Context {A : Type} (cb : A -> result bool).


(** The pass keeps exactly the elements the callback answers [true] for. *)
Lemma Array_filter_In (xs kept : list A) :
  Array_filter cb xs = Ok kept ->
  forall x, In x kept <-> In x xs /\ cb x = Ok true.
Proof.
  revert kept. induction xs as [|x xs IH]; simpl; intros kept H z.
  - inversion H. simpl. tauto.
  - destruct (cb x) as [keep|] eqn:Hx; [|discriminate].
    destruct (Array_filter cb xs) as [kept'|]; [|discriminate].
    inversion H; subst. specialize (IH kept' eq_refl z).
    destruct keep; simpl; rewrite ?IH; split.
    + intros [->|[H1 H2]]; auto.
    + intros [[->|H1] H2]; auto.
    + intros [H1 H2]; auto.
    + intros [[->|H1] H2]; [congruence | auto].
Qed.

(** The pass completes when the callback answers for every element. *)
Lemma Array_filter_completes (xs : list A) :
  (forall x, In x xs -> exists keep, cb x = Ok keep) ->
  exists kept, Array_filter cb xs = Ok kept.
Proof.
  induction xs as [|x xs IH]; simpl; intros H.
  - eauto.
  - destruct (H x (or_introl eq_refl)) as [keep ->].
    destruct IH as [kept ->]; [intros; apply H; right; assumption|]. eauto.
Qed.

(** The pass throws what the callback throws. *)
Lemma Array_filter_throws (xs : list A) (e : exn) :
  (forall x e', cb x = Throw e' -> e' = e) ->
  (exists x, In x xs /\ cb x = Throw e) ->
  Array_filter cb xs = Throw e.
Proof.
  intros Hcb. induction xs as [|x xs IH]; simpl; intros (z & Hin & Hz).
  - contradiction.
  - destruct (cb x) as [keep|e'] eqn:Hx.
    + destruct Hin as [->|Hin]; [congruence|].
      rewrite IH by eauto. reflexivity.
    + f_equal. eapply Hcb; eassumption.
Qed.

End ArrayFilter.

(** ** [handleSearch] *)

Section Search.
Context {num : Type} {CM : CaseMapping}.
Import PostsList.

(** What one call of [handleSearch] does to the state. *)
Lemma handleSearch_run (text : string) (st : State num) :
  handleSearch text st =
  let typed := exec (setSearchTerm text) st in
  if String.eqb text "" then
    (Ok tt, exec (setFilteredProducts (products st)) typed)
  else
    match Array_filter (title_includes text) (products st) with
    | Ok filtered => (Ok tt, exec (setFilteredProducts filtered) typed)
    | Throw e => (Throw e, typed)
    end.
Proof.
  unfold handleSearch, bind, gets, await, exec, setSearchTerm,
    setFilteredProducts, modify; simpl.
  destruct (String.eqb text ""); [reflexivity|].
  destruct (Array_filter _ _); reflexivity.
Qed.

Lemma visible_eq (text : string) (st : State num) :
  visible text st =
  if String.eqb text "" then Ok (products st)
  else Array_filter (title_includes text) (products st).
Proof.
  unfold visible, eval, bind. rewrite handleSearch_run. simpl.
  destruct (String.eqb text ""); [reflexivity|].
  destruct (Array_filter _ _); reflexivity.
Qed.

Lemma searchResult_eq (items : list (Product num)) (text : string) :
  searchResult items text =
  if String.eqb text "" then Ok items
  else Array_filter (title_includes text) items.
Proof. unfold searchResult. rewrite visible_eq. reflexivity. Qed.

Lemma title_includes_titled (text : string) (item : Product num) :
  titled item -> exists keep, title_includes text item = Ok keep.
Proof.
  unfold titled, title_includes. destruct (title item); [eauto | congruence].
Qed.

Lemma title_includes_true (text : string) (item : Product num) :
  title_includes text item = Ok true <-> name_contains text item.
Proof.
  unfold title_includes, name_contains. destruct (title item) as [t|].
  - split.
    + intros H. inversion H as [H']. exists t. split; [reflexivity|].
      apply includes_occurs. exact H'.
    + intros (t' & E & H). inversion E; subst t'.
      apply includes_occurs in H. now rewrite H.
  - split; [discriminate | intros (t & E & _); discriminate].
Qed.

(** On items that all have a title the filter returns a list. *)
Lemma searchResult_completes (items : list (Product num)) (text : string) :
  Forall titled items -> exists shown, searchResult items text = Ok shown.
Proof.
  intros H. rewrite searchResult_eq. destruct (String.eqb text ""); [eauto|].
  apply Array_filter_completes. intros x Hx.
  apply title_includes_titled. rewrite Forall_forall in H. auto.
Qed.

End Search.

(** ** The filter *)

Section Filter.
Context {num : Type} {CM : CaseMapping}.
Import PostsList.

(** C2, as amended: the filter completes, for every query, on a list whose
    items all have a title, and for the empty query on any list; for a
    query that is not empty and a list with an item whose title is
    missing, the pass raises a TypeError and produces no list. *)
Theorem filter_completes_on_titled (items : list (Product num)) (query : string) :
  (query = "" \/ Forall titled items ->
   exists shown, searchResult items query = Ok shown) /\
  (query <> "" -> Exists (fun item => title item = None) items ->
   searchResult items query = Throw TypeError).
Proof.
  split.
  - intros [-> | H].
    + rewrite searchResult_eq. simpl. eauto.
    + apply searchResult_completes. exact H.
  - intros Hq Hex. rewrite searchResult_eq.
    destruct (String.eqb query "") eqn:E.
    + apply String.eqb_eq in E. contradiction.
    + apply Array_filter_throws.
      * intros x e'. unfold title_includes.
        destruct (title x); [discriminate | intros H; inversion H; reflexivity].
      * apply Exists_exists in Hex as (x & Hin & Hx). exists x.
        split; [exact Hin|]. unfold title_includes. now rewrite Hx.
Qed.

(** C7: the empty query returns the list itself, for every list. *)
Theorem filter_empty_query_identity (items : list (Product num)) :
  searchResult items "" = Ok items.
Proof. rewrite searchResult_eq. reflexivity. Qed.


End Filter.

(** *** The filter on the sample data *)

(** Searching "phone" and then clearing the search box shows the three
    stored items again. *)
Example narrow_then_broaden :
  PostsList.visible (CM := AsciiCase) ""
    (exec (PostsList.handleSearch (CM := AsciiCase) "phone")
          (exec (PostsList.setProducts phones) PostsList.mount))
  = Ok phones.
Proof. reflexivity. Qed.

Lemma phones_titled : Forall titled phones.
Proof. repeat constructor; discriminate. Defined.

(** The search scenario of the specification: "phone" on the three stored
    titles shows the first and the third, in that order. *)
Example search_phone :
  PostsList.searchResult (CM := AsciiCase) phones "phone"
  = Ok [named "iPhone 9"; named "Huawei Phone"].
Proof. reflexivity. Qed.

(** C2, counterexample: one stored item without a title and the query
    "phone". The pass does not complete with the item left out: it throws. *)
Lemma missing_title_throws :
  PostsList.searchResult (CM := AsciiCase) [unnamed] "phone" = Throw TypeError /\
  PostsList.searchResult (CM := AsciiCase) [unnamed] "phone" <> Ok [].
Proof. split; [reflexivity | discriminate]. Qed.

(** The three titled items complete the pass; with an untitled one in
    front the pass throws. *)
Lemma filter_completes_on_titled_witness :
  (exists shown,
      PostsList.searchResult (CM := AsciiCase) phones "phone" = Ok shown) /\
  PostsList.searchResult (CM := AsciiCase) (unnamed :: phones) "phone"
  = Throw TypeError.
Proof.
  split.
  - apply (proj1 (filter_completes_on_titled (CM := AsciiCase) phones "phone")).
    right. exact phones_titled.
  - apply (proj2 (filter_completes_on_titled (CM := AsciiCase)
                    (unnamed :: phones) "phone")).
    + discriminate.
    + constructor. reflexivity.
Defined.

(** ** Fetching *)

Section Fetch.
Context {num : Type}.

(** On bodies of the declared shape: when the fetch fails, by either
    component, the stored list is the one from before the call and the
    error message is set to a string. *)
Lemma failed_fetch_keeps_store (net : Fetched num)
  (st : PostsList.State num) (st' : AppContent.State num) :
  fetch_fails net = true ->
  (PostsList.products (exec (PostsList.fetchProducts net) st)
   = PostsList.products st /\
   exists message,
     PostsList.error (exec (PostsList.fetchProducts net) st) = Some message) /\
  (AppContent.posts (exec (AppContent.fetchPosts net) st')
   = AppContent.posts st' /\
   exists message,
     AppContent.error (exec (AppContent.fetchPosts net) st') = Some message).
Proof.
  unfold fetch_fails. intros H.
  destruct net as [[[[[[items|]]|]|e']]|e]; try discriminate;
    (split; (split; [reflexivity | eexists; reflexivity])).
Qed.

(** C9, as amended: on a successful fetch of [items], [fetchPosts] stores
    the first 30 of them, that is min(n, 30) items in response order, and
    [fetchProducts] stores all of them, however many, and puts them all on
    display, which is also what the empty query shows afterwards. Up to 30
    items both components store the whole collection. *)
Theorem successful_fetch_stores (items : list (Product num))
  (st : PostsList.State num) (st' : AppContent.State num) {CM : CaseMapping} :
  (AppContent.posts (exec (AppContent.fetchPosts (reply (Some items))) st')
   = firstn 30 items /\
   List.length (AppContent.posts
                  (exec (AppContent.fetchPosts (reply (Some items))) st'))
   = Nat.min (List.length items) 30) /\
  (PostsList.products (exec (PostsList.fetchProducts (reply (Some items))) st)
   = items /\
   PostsList.filteredProducts
     (exec (PostsList.fetchProducts (reply (Some items))) st)
   = items /\
   PostsList.visible "" (exec (PostsList.fetchProducts (reply (Some items))) st)
   = Ok items) /\
  (List.length items <= 30 ->
   AppContent.posts (exec (AppContent.fetchPosts (reply (Some items))) st')
   = items).
Proof.
  assert (AppContent.posts
            (exec (AppContent.fetchPosts (reply (Some items))) st')
          = firstn 30 items) as Hposts by reflexivity.
  split; [split | split; [split; [reflexivity | split; reflexivity] |]].
  - exact Hposts.
  - rewrite Hposts, length_firstn. apply Nat.min_comm.
  - intros Hn. rewrite Hposts. apply firstn_all2. exact Hn.
Qed.
End Fetch.

(** C9, counterexample: a response of 31 items through [fetchProducts]
    leaves 31 items in the store, not the first 30. *)
Lemma fetchProducts_stores_31 :
  List.length
    (PostsList.products
       (exec (PostsList.fetchProducts (reply (Some (repeat unnamed 31))))
             PostsList.mount)) = 31 /\
  PostsList.products
    (exec (PostsList.fetchProducts (reply (Some (repeat unnamed 31))))
          PostsList.mount)
  <> firstn 30 (repeat unnamed 31).
Proof.
  split; [reflexivity|]. intros H. apply (f_equal (@List.length _)) in H.
  vm_compute in H. discriminate.
Qed.

(** A response of exactly 30 items is stored whole by [fetchPosts]. *)
Lemma successful_fetch_stores_witness :
  List.length (repeat unnamed 30) <= 30 /\
  AppContent.posts
    (exec (AppContent.fetchPosts (reply (Some (repeat unnamed 30))))
          AppContent.mount)
  = repeat unnamed 30.
Proof.
  split; [vm_compute; lia|].
  apply (proj2 (proj2 (successful_fetch_stores (CM := AsciiCase)
                         (repeat unnamed 30) PostsList.mount AppContent.mount))).
  vm_compute. lia.
Defined.

(** ** The derived values of a card *)

Section Render.
Import PostsList.

(** Without a [reviews] field the rating is 0, in either number domain. *)
Lemma averageRating_absent {num : Type} {N : Number num} (item : Product num) :
  reviews item = None -> averageRating item = of_nat 0.
Proof. unfold averageRating. intros ->. reflexivity. Qed.

(** The example of the specification, as the engine computes it. *)
Example averageRating_4_5 :
  averageRating
    (sample None 100%float 25%float
            (Some [ {| rating := 4%float |}; {| rating := 5%float |} ]))
  = 4.5%float.
Proof. reflexivity. Qed.

Local Open Scope Q_scope.

Lemma reduce_ratings (ratings : list Q) (acc : Q) :
  exists sum,
    fold_left (fun a review => add a (rating review)) (map rated ratings)
              (Some acc) = Some sum /\
    sum == acc + total ratings.
Proof.
  revert acc. induction ratings as [|q ratings IH]; intros acc.
  - exists acc. split; [reflexivity | simpl; ring].
  - destruct (IH (acc + q)) as (sum & Hsum & E). exists sum.
    split; [exact Hsum|]. rewrite E. simpl. ring.
Qed.

(** In exact arithmetic the rating of an item with at least one review is
    the mean of the ratings. *)
Lemma averageRating_mean (item : Product (option Q)) (q : Q) (ratings : list Q) :
  reviews item = Some (map rated (q :: ratings)) ->
  exists r,
    averageRating item = Some r /\
    r == total (q :: ratings) / inject_Z (Z.of_nat (List.length (q :: ratings))).
Proof.
  intros H. unfold averageRating. rewrite H.
  destruct (reduce_ratings (q :: ratings) 0) as (sum & Hsum & E).
  change (of_nat 0) with (Some 0). rewrite Hsum.
  rewrite length_map. cbn [div of_nat exact exact_div].
  destruct (Qeq_bool _ 0) eqn:Z0.
  - apply Qeq_bool_iff in Z0. unfold Qeq in Z0. simpl in Z0. lia.
  - eexists. split; [reflexivity|]. rewrite E. rewrite Qplus_0_l. reflexivity.
Qed.

(** C3, at the failing input: an item whose [reviews] field is an empty
    array. The test of line 55 is truthy, so the quotient 0 / 0 is taken:
    the rating is NaN, not 0. *)
Theorem averageRating_empty_reviews :
  reviews unrated = Some [] /\
  averageRating unrated = nan /\
  PrimFloat.eqb (averageRating unrated) 0%float = false.
Proof. repeat split. Qed.

(** The same input in exact arithmetic: the quotient has no value. *)
Example averageRating_empty_reviews_exact :
  averageRating (sample None (Some 100) (Some 25) (Some [])) = None.
Proof. reflexivity. Qed.

(** The expression of line 54 in exact arithmetic: for a price that is not
    negative and a discount percentage between 0 and 100 it equals
    price * (1 - discountPercentage / 100), and it is not negative. *)
Lemma discountedPrice_formula (item : Product (option Q)) (p d : Q) :
  price item = Some p ->
  discountPercentage item = Some d ->
  0 <= p ->
  0 <= d <= 100 ->
  exists r,
    discountedPrice item = Some r /\
    r == p * (1 - d / 100) /\
    0 <= r.
Proof.
  intros Hp Hd Hp0 [Hd0 Hd1]. unfold discountedPrice. rewrite Hp, Hd.
  exists (p - p * (d / 100)). split; [reflexivity|].
  assert (p - p * (d / 100) == p * (1 - d / 100)) as E by field.
  split; [exact E|]. rewrite E. apply Qmult_le_0_compat; [exact Hp0|].
  assert (d / 100 <= 1) as Hq
      by (apply Qle_shift_div_r; [reflexivity | lra]).
  lra.
Qed.
End Render.

(** A price of 100 with a discount of 25 percent, in exact arithmetic. *)
Example discountedPrice_formula_100_25 :
  (0 <= 100)%Q /\ (0 <= 25 <= 100)%Q /\
  exists r,
    PostsList.discountedPrice (sample None (Some 100%Q) (Some 25%Q) None)
    = Some r /\
    (r == 100 * (1 - 25 / 100))%Q /\ (0 <= r)%Q.
Proof.
  assert (0 <= 100)%Q as H0 by (vm_compute; discriminate).
  assert (0 <= 25 <= 100)%Q as H1 by (split; vm_compute; discriminate).
  split; [exact H0|]. split; [exact H1|].
  exact (discountedPrice_formula
           (sample None (Some 100%Q) (Some 25%Q) None) 100 25
           eq_refl eq_refl H0 H1).
Defined.

(** The example of the specification, as the engine computes it: a price of
    100 with a discount of 25 percent gives 75. *)
Example discountedPrice_100_25 :
  PostsList.discountedPrice (sample None 100%float 25%float None) = 75%float.
Proof. reflexivity. Qed.

(** Line 54 has no clamp: outside the range of the claim, with a discount
    above 100 percent, the value is negative. *)
Example discountedPrice_no_clamp :
  PostsList.discountedPrice (sample None 100%float 150%float None)
  = (-50)%float.
Proof. reflexivity. Qed.

(** * More of the components *)

(** ** The filter, on lists of titled items, as a list filter *)

Lemma append_assoc (a b c : string) :
  ((a ++ b) ++ c)%string = (a ++ b ++ c)%string.
Proof. induction a as [|x a IH]; simpl; [reflexivity | now rewrite IH]. Qed.

Lemma occurs_trans (a b c : string) : occurs a b -> occurs b c -> occurs a c.
Proof.
  intros (p1 & s1 & ->) (p2 & s2 & ->).
  exists (p2 ++ p1)%string, (s1 ++ s2)%string.
  now rewrite !append_assoc.
Qed.

Lemma occurs_in_empty (a : string) : occurs a "" -> a = "".
Proof.
  intros (p & s & H). destruct p; [|discriminate].
  destruct a; [reflexivity | discriminate].
Qed.

Lemma Array_filter_total {A : Type} (cb : A -> result bool) (p : A -> bool)
  (xs : list A) :
  (forall x, In x xs -> cb x = Ok (p x)) ->
  Array_filter cb xs = Ok (filter p xs).
Proof.
  induction xs as [|x xs IH]; simpl; intros H; [reflexivity|].
  rewrite (H x (or_introl eq_refl)), IH by (intros; apply H; now right).
  destruct (p x); reflexivity.
Qed.

Lemma Array_filter_ext {A : Type} (cb cb' : A -> result bool) (xs : list A) :
  (forall x, cb x = cb' x) -> Array_filter cb xs = Array_filter cb' xs.
Proof.
  intros H. induction xs as [|x xs IH]; simpl; [reflexivity|].
  now rewrite H, IH.
Qed.

Lemma filter_subsequence {A : Type} (p : A -> bool) (xs : list A) :
  subsequence (filter p xs) xs.
Proof.
  induction xs as [|x xs IH]; simpl; [constructor|].
  destruct (p x); constructor; exact IH.
Qed.

Lemma filter_narrower {A : Type} (p q : A -> bool) (xs : list A) :
  (forall x, In x xs -> q x = true -> p x = true) ->
  subsequence (filter q xs) (filter p xs).
Proof.
  induction xs as [|x xs IH]; simpl; intros H; [constructor|].
  assert (subsequence (filter q xs) (filter p xs)) as Hs
      by (apply IH; intros; apply H; [now right | assumption]).
  destruct (q x) eqn:Q.
  - rewrite (H x (or_introl eq_refl) Q). constructor. exact Hs.
  - destruct (p x); [constructor|]; exact Hs.
Qed.

Lemma filter_swap {A : Type} (p q : A -> bool) (xs : list A) :
  filter q (filter p xs) = filter p (filter q xs).
Proof.
  induction xs as [|x xs IH]; simpl; [reflexivity|].
  destruct (p x) eqn:P, (q x) eqn:Q; simpl; rewrite ?P, ?Q, IH; reflexivity.
Qed.

Section FilterAsList.
Context {num : Type} {CM : CaseMapping}.
Import PostsList.

Lemma title_includes_matches (query : string) (item : Product num) :
  titled item -> title_includes query item = Ok (name_matches query item).
Proof.
  unfold titled, title_includes, name_matches.
  destruct (title item); [reflexivity | congruence].
Qed.

Lemma searchResult_titled (items : list (Product num)) (query : string) :
  Forall titled items ->
  searchResult items query
  = Ok (if String.eqb query "" then items
        else filter (name_matches query) items).
Proof.
  intros H. rewrite searchResult_eq. destruct (String.eqb query ""); [reflexivity|].
  apply Array_filter_total. intros x Hx. apply title_includes_matches.
  rewrite Forall_forall in H. auto.
Qed.

Lemma titled_filter (p : Product num -> bool) (items : list (Product num)) :
  Forall titled items -> Forall titled (filter p items).
Proof.
  rewrite !Forall_forall. intros H x Hx. apply filter_In in Hx. apply H, Hx.
Qed.

Lemma name_matches_empty (query : string) (item : Product num) :
  toLowerCase query = "" -> titled item -> name_matches query item = true.
Proof.
  unfold titled, name_matches. intros -> H.
  destruct (title item); [apply includes_empty | congruence].
Qed.

Lemma filter_all_match (query : string) (items : list (Product num)) :
  toLowerCase query = "" -> Forall titled items ->
  filter (name_matches query) items = items.
Proof.
  intros Hq H. apply forallb_filter_id. apply forallb_forall.
  rewrite Forall_forall in H. intros x Hx. apply name_matches_empty; auto.
Qed.

Lemma name_matches_narrower (q1 q2 : string) (item : Product num) :
  occurs (toLowerCase q1) (toLowerCase q2) ->
  name_matches q2 item = true -> name_matches q1 item = true.
Proof.
  unfold name_matches. intros Ho. destruct (title item); [|discriminate].
  rewrite !includes_occurs. apply occurs_trans. exact Ho.
Qed.

(** X5: on a list of titled items, a query whose lower-case form contains
    that of another query shows a subsequence of what the other shows:
    typing more narrows the list. *)
Theorem filter_narrows (items : list (Product num)) (q1 q2 : string) :
  Forall titled items ->
  occurs (toLowerCase q1) (toLowerCase q2) ->
  exists shown1 shown2,
    searchResult items q1 = Ok shown1 /\
    searchResult items q2 = Ok shown2 /\
    subsequence shown2 shown1.
Proof.
  intros Ht Ho. rewrite !searchResult_titled by exact Ht.
  do 2 eexists. split; [reflexivity|]. split; [reflexivity|].
  destruct (String.eqb q1 "") eqn:E1, (String.eqb q2 "") eqn:E2.
  - apply subsequence_refl.
  - apply filter_subsequence.
  - apply String.eqb_eq in E2. subst q2. rewrite toLowerCase_empty in Ho.
    apply occurs_in_empty in Ho. rewrite filter_all_match by assumption.
    apply subsequence_refl.
  - apply filter_narrower. intros x _. apply name_matches_narrower. exact Ho.
Qed.

(** X6: two queries that are not empty and have the same lower-case form
    give the same outcome on every list, a thrown error included. *)
Theorem filter_ignores_query_case (items : list (Product num)) (q1 q2 : string) :
  q1 <> "" -> q2 <> "" ->
  toLowerCase q1 = toLowerCase q2 ->
  searchResult items q1 = searchResult items q2.
Proof.
  intros H1 H2 E. rewrite !searchResult_eq.
  apply String.eqb_neq in H1, H2. rewrite H1, H2.
  apply Array_filter_ext. intros x. unfold title_includes. now rewrite E.
Qed.

(** X7: on a list of titled items, filtering by one query and then by
    another gives the same list in either order. *)
Theorem filter_commutes (items : list (Product num)) (q1 q2 : string) :
  Forall titled items ->
  exists shown1 shown2 both,
    searchResult items q1 = Ok shown1 /\
    searchResult items q2 = Ok shown2 /\
    searchResult shown1 q2 = Ok both /\
    searchResult shown2 q1 = Ok both.
Proof.
  intros Ht. rewrite !searchResult_titled by exact Ht.
  do 3 eexists. split; [reflexivity|]. split; [reflexivity|].
  assert (Forall titled
            (if String.eqb q1 "" then items else filter (name_matches q1) items))
    as T1 by (destruct (String.eqb q1 ""); [|apply titled_filter]; exact Ht).
  assert (Forall titled
            (if String.eqb q2 "" then items else filter (name_matches q2) items))
    as T2 by (destruct (String.eqb q2 ""); [|apply titled_filter]; exact Ht).
  rewrite !searchResult_titled by assumption.
  split; [reflexivity|]. f_equal.
  destruct (String.eqb q1 ""), (String.eqb q2 ""); try reflexivity.
  apply filter_swap.
Qed.
End FilterAsList.

(** ** [handleSearch] and [fetchProducts] on the whole state *)

Section PostsListState.
Context {num : Type} {CM : CaseMapping}.
Import PostsList.

(** X1: a search changes nothing but the text and the list on display: the
    search bar holds the new text, also when the filter throws, and the
    store, the loading flag and the error message are as before. *)
Theorem handleSearch_frame (text : string) (st : State num) :
  searchTerm (exec (handleSearch text) st) = text /\
  products (exec (handleSearch text) st) = products st /\
  loading (exec (handleSearch text) st) = loading st /\
  error (exec (handleSearch text) st) = error st.
Proof.
  unfold exec. rewrite handleSearch_run. simpl.
  destruct (String.eqb text ""); [repeat split|].
  destruct (Array_filter _ _); repeat split.
Qed.

(** X2: with an item without a title in the store and a query that is not
    empty, the search throws a TypeError after it has recorded the text:
    the list on display stays the one from before while the search bar
    holds the new text. *)
Theorem handleSearch_throw_keeps_list (text : string) (st : State num) :
  text <> "" ->
  Exists (fun item => title item = None) (products st) ->
  eval (handleSearch text) st = Throw TypeError /\
  filteredProducts (exec (handleSearch text) st) = filteredProducts st /\
  searchTerm (exec (handleSearch text) st) = text.
Proof.
  intros Hq Hex. unfold eval, exec. rewrite handleSearch_run. simpl.
  apply String.eqb_neq in Hq. rewrite Hq.
  rewrite Array_filter_throws with (e := TypeError).
  - repeat split.
  - intros x e'. unfold title_includes.
    destruct (title x); [discriminate | intros H; inversion H; reflexivity].
  - apply Exists_exists in Hex as (x & Hin & Hx). exists x.
    split; [exact Hin|]. unfold title_includes. now rewrite Hx.
Qed.

(** X3: after a search that completes, the list on display is the filter of
    the stored list by the text the search bar holds. *)
Theorem handleSearch_in_sync (text : string) (st : State num) :
  eval (handleSearch text) st = Ok tt ->
  in_sync (exec (handleSearch text) st).
Proof.
  unfold in_sync, eval, exec. rewrite searchResult_eq, handleSearch_run. simpl.
  destruct (String.eqb text "") eqn:E; simpl.
  - intros _. rewrite E. reflexivity.
  - destruct (Array_filter _ _) eqn:F; simpl; [|discriminate].
    intros _. rewrite E. exact F.
Qed.

(** X4: a fetch keeps the list on display in line with the search bar when
    it fails, and when it succeeds while the search bar is empty. (A fetch
    that succeeds puts the whole collection on display, whatever the search
    bar holds.) *)
Theorem fetchProducts_in_sync (net : Fetched num) (st : State num) :
  in_sync st ->
  fetch_fails net = true \/ searchTerm st = "" ->
  in_sync (exec (fetchProducts net) st).
Proof.
  unfold in_sync. intros Hs H.
  destruct net as [[[[[[items|]]|]|e']]|e]; simpl in H;
    try exact Hs.
  destruct H as [H|H]; [discriminate|].
  rewrite searchResult_eq. simpl. rewrite H. reflexivity.
Qed.

(** X8: whatever the network delivers, [fetchProducts] lets no exception
    out, ends with the loading flag off, and leaves the text of the search
    bar alone; a fetch that succeeds leaves the error message as it was. *)
Theorem fetchProducts_settles (net : Fetched num) (st : State num) :
  eval (fetchProducts net) st = Ok tt /\
  loading (exec (fetchProducts net) st) = false /\
  searchTerm (exec (fetchProducts net) st) = searchTerm st /\
  (fetch_fails net = false ->
   error (exec (fetchProducts net) st) = error st).
Proof.
  destruct net as [[[[[[items|]]|]|e']]|e]; simpl;
    repeat split; try reflexivity; discriminate.
Qed.

(** X9: a fetch that fails tells a rejected promise from a body without
    the list by its message, and leaves the list on display as it was. *)
Theorem fetchProducts_failure_message (net : Fetched num) (st : State num) :
  fetch_fails net = true ->
  error (exec (fetchProducts net) st)
  = Some (if rejected net then "Failed to load products."
          else "No products found.") /\
  filteredProducts (exec (fetchProducts net) st) = filteredProducts st.
Proof.
  destruct net as [[[[[[items|]]|]|e']]|e]; simpl; intros H;
    try discriminate; split; reflexivity.
Qed.

Lemma typing_frame (texts : list string) (st : State num) :
  products (typing texts st) = products st /\
  loading (typing texts st) = loading st /\
  error (typing texts st) = error st.
Proof.
  revert st. induction texts as [|text texts IH]; intros st; simpl.
  - repeat split.
  - destruct (IH (exec (handleSearch text) st)) as (-> & -> & ->).
    unfold exec. rewrite handleSearch_run. simpl.
    destruct (String.eqb text ""); [repeat split|].
    destruct (Array_filter _ _); repeat split.
Qed.

(** X10: once a fetch has failed, the screen shows the message of the
    failure, and goes on showing it whatever the user types afterwards:
    the list is not shown again. *)
Theorem failed_fetch_screen (net : Fetched num) (texts : list string)
  (st : State num) :
  fetch_fails net = true ->
  body (render (typing texts (exec (fetchProducts net) st)))
  = ErrorText (if rejected net then "Failed to load products."
               else "No products found.").
Proof.
  intros H. unfold render. simpl.
  destruct (typing_frame texts (exec (fetchProducts net) st)) as (_ & -> & ->).
  destruct net as [[[[[[items|]]|]|e']]|e]; try discriminate; reflexivity.
Qed.

(** X11: from a state without an error message, a response with an empty
    list and a response whose body has no list give the same screen: the
    text "No products found." *)
Theorem empty_list_screen (st : State num) :
  truthy (error st) = None ->
  body (render (exec (fetchProducts (reply (Some []))) st))
  = ErrorText "No products found." /\
  body (render (exec (fetchProducts (reply None)) st))
  = ErrorText "No products found.".
Proof.
  intros H. unfold render. simpl. rewrite H. split; reflexivity.
Qed.
End PostsListState.

(** ** [fetchPosts], the reload button and the screen of [AppContent] *)

Section AppContentState.
Context {num : Type}.
Import AppContent.

(** What one call of [fetchPosts] leaves, by the outcome of the fetch. *)
Lemma fetchPosts_run (net : Fetched num) (st : State num) :
  fetchPosts net st =
  (Ok tt,
   {| posts := match net with
               | Ok {| json := Ok (Some {| Json.products := Some items |}) |} =>
                   firstn 30 items
               | _ => posts st
               end;
      search := search st;
      loading := false;
      error := if fetch_fails net
               then Some "Failed to fetch products. Please try again."
               else None |}).
Proof. destruct net as [[[[[[items|]]|]|e']]|e]; reflexivity. Qed.


(** X13: when a call of [fetchPosts] starts after the call before it has
    run to its end, and succeeds, the state is the one this call alone
    would have left: nothing of the earlier response is merged in. *)
Theorem fetchPosts_supersedes (first second : Fetched num) (st : State num) :
  fetch_fails second = false ->
  exec (fetchPosts second) (exec (fetchPosts first) st)
  = exec (fetchPosts second) st.
Proof.
  intros H. unfold exec. rewrite !fetchPosts_run. simpl.
  destruct second as [[[[[[items|]]|]|e']]|e]; try discriminate. reflexivity.
Qed.

(** X14: fetching twice with the same outcome leaves the state that
    fetching once leaves. *)
Theorem fetchPosts_twice (net : Fetched num) (st : State num) :
  exec (fetchPosts net) (exec (fetchPosts net) st) = exec (fetchPosts net) st.
Proof.
  unfold exec. rewrite !fetchPosts_run. simpl.
  destruct net as [[[[[[items|]]|]|e']]|e]; reflexivity.
Qed.

(** A call of [fetchPosts] that nothing interrupts is its two stretches
    one after the other. *)
Lemma fetchPosts_two_stretches (net : Fetched num) (st : State num) :
  fetchPosts net st = (fetchPosts_begin ;; fetchPosts_settle net) st.
Proof. reflexivity. Qed.

(** What the second stretch leaves, by the outcome of the request. *)
Lemma fetchPosts_settle_run (net : Fetched num) (st : State num) :
  fetchPosts_settle net st =
  (Ok tt,
   {| posts := match net with
               | Ok {| json := Ok (Some {| Json.products := Some items |}) |} =>
                   firstn 30 items
               | _ => posts st
               end;
      search := search st;
      loading := false;
      error := if fetch_fails net
               then Some "Failed to fetch products. Please try again."
               else error st |}).
Proof. destruct st, net as [[[[[[items|]]|]|e']]|e]; reflexivity. Qed.

Lemma run_app (before after : list (Event num)) (st : State num) :
  run (before ++ after) st = run after (run before st).
Proof. unfold run. apply fold_left_app. Qed.

Lemma run_failing_keeps_posts (events : list (Event num)) (st : State num) :
  settlements_fail events -> posts (run events st) = posts st.
Proof.
  unfold settlements_fail. intros H. revert st.
  induction H as [|ev events Hev _ IH]; intros st; [reflexivity|].
  change (run (ev :: events) st) with (run events (exec (handle ev) st)).
  rewrite IH. destruct ev as [|net|text]; [reflexivity| |reflexivity].
  unfold handle, exec. rewrite fetchPosts_settle_run. simpl.
  destruct net as [[[[[[items|]]|]|e']]|e]; try discriminate; reflexivity.
Qed.

(** X15: once a request has settled with a list, the store holds the first
    30 items of that list through every later press of the button, every
    later change of the search text and every later settlement that fails,
    of whichever request, whatever happened before. (A later settlement
    with a list, also of a request started earlier, replaces it.) *)
Theorem last_success_stays (before after : list (Event num))
  (items : list (Product num)) (st : State num) :
  settlements_fail after ->
  posts (run (before ++ Settle (reply (Some items)) :: after) st)
  = firstn 30 items.
Proof.
  intros H. rewrite run_app.
  change (run (Settle (reply (Some items)) :: after) (run before st))
    with (run after
              (exec (fetchPosts_settle (reply (Some items))) (run before st))).
  rewrite run_failing_keeps_posts by exact H. reflexivity.
Qed.

(** X17: with two requests in flight of which one fails and one brings a
    list, in whichever order they settle, the store ends with the first 30
    items of the list and the screen with the message of the failure: the
    settlement with the list does not clear the message, which only the
    start of a call does. *)
Theorem overlapping_reloads (net : Fetched num) (items : list (Product num))
  (st : State num) :
  fetch_fails net = true ->
  run [Press; Press; Settle (reply (Some items)); Settle net] st
  = {| posts := firstn 30 items;
       search := search st;
       loading := false;
       error := Some "Failed to fetch products. Please try again." |} /\
  run [Press; Press; Settle net; Settle (reply (Some items))] st
  = {| posts := firstn 30 items;
       search := search st;
       loading := false;
       error := Some "Failed to fetch products. Please try again." |}.
Proof.
  intros H. unfold run, handle, exec. cbn [fold_left].
  rewrite !fetchPosts_settle_run. rewrite H. cbn.
  destruct net as [[[[[[items'|]]|]|e']]|e]; try discriminate;
    split; reflexivity.
Qed.

(** X16: after a reload that failed, the screen shows the message above
    the list, and the list component is given the items stored before the
    reload: what was fetched earlier stays on display. *)
Theorem failed_reload_screen (net : Fetched num) (st : State num) :
  fetch_fails net = true ->
  render (exec (handleReload net) st)
  = {| searchBar := search st;
       banner := ErrorLine "Failed to fetch products. Please try again.";
       main := PostsListWith (search st) (posts st) |}.
Proof.
  intros H. unfold handleReload, exec. rewrite fetchPosts_run.
  unfold render. simpl. rewrite H. simpl.
  destruct net as [[[[[[items|]]|]|e']]|e]; try discriminate; reflexivity.
Qed.

(** After a reload that succeeded, the screen shows no message, also when
    one was shown before, and the list component is given the first 30
    items of the response together with the search text. *)
Example successful_reload_screen (items : list (Product num)) (st : State num) :
  render (exec (handleReload (reply (Some items))) st)
  = {| searchBar := search st;
       banner := Null;
       main := PostsListWith (search st) (firstn 30 items) |}.
Proof. reflexivity. Qed.
End AppContentState.

(** ** The properties above on the sample data *)

Section Witnesses.
Import PostsList.
#[local] Existing Instance AsciiCase.

(** The store holds one item without a title; the user types "phone". *)
Lemma handleSearch_throw_keeps_list_witness :
  "phone" <> "" /\
  eval (handleSearch "phone") (exec (setProducts [unnamed]) mount)
  = Throw TypeError /\
  filteredProducts
    (exec (handleSearch "phone") (exec (setProducts [unnamed]) mount))
  = [] /\
  searchTerm (exec (handleSearch "phone") (exec (setProducts [unnamed]) mount))
  = "phone".
Proof.
  assert ("phone" <> "") as H by discriminate. split; [exact H|].
  apply (handleSearch_throw_keeps_list "phone"
           (exec (setProducts [unnamed]) mount) H).
  constructor. reflexivity.
Defined.

Lemma handleSearch_in_sync_witness :
  eval (handleSearch "phone") (exec (setProducts phones) mount) = Ok tt /\
  in_sync (exec (handleSearch "phone") (exec (setProducts phones) mount)).
Proof.
  split; [reflexivity|].
  apply (handleSearch_in_sync "phone" (exec (setProducts phones) mount)).
  reflexivity.
Defined.

(** The fetch of the first render succeeds before the user has typed. *)
Lemma fetchProducts_in_sync_witness :
  in_sync (mount (num := float)) /\
  in_sync (exec (fetchProducts (reply (Some phones))) mount).
Proof.
  assert (in_sync (mount (num := float))) as H by reflexivity.
  split; [exact H|].
  apply (fetchProducts_in_sync (reply (Some phones)) mount H).
  right. reflexivity.
Defined.

(** "ph" and then "phone". *)
Lemma filter_narrows_witness :
  occurs (toLowerCase "ph") (toLowerCase "phone") /\
  exists shown1 shown2,
    searchResult phones "ph" = Ok shown1 /\
    searchResult phones "phone" = Ok shown2 /\
    subsequence shown2 shown1.
Proof.
  assert (occurs (toLowerCase "ph") (toLowerCase "phone")) as H
      by (exists "", "one"; reflexivity).
  split; [exact H|].
  exact (filter_narrows phones "ph" "phone" phones_titled H).
Defined.

Lemma filter_ignores_query_case_witness :
  toLowerCase "phone" = toLowerCase "PHONE" /\
  searchResult (unnamed :: phones) "phone"
  = searchResult (unnamed :: phones) "PHONE".
Proof.
  split; [reflexivity|].
  apply (filter_ignores_query_case (unnamed :: phones) "phone" "PHONE");
    [discriminate | discriminate | reflexivity].
Defined.

Lemma filter_commutes_witness :
  exists shown1 shown2 both,
    searchResult phones "phone" = Ok shown1 /\
    searchResult phones "i" = Ok shown2 /\
    searchResult shown1 "i" = Ok both /\
    searchResult shown2 "phone" = Ok both.
Proof. exact (filter_commutes phones "phone" "i" phones_titled). Defined.

(** The request of the first render does not complete. *)
Lemma fetchProducts_failure_message_witness :
  error (exec (fetchProducts (Throw NetworkError)) (mount (num := float)))
  = Some "Failed to load products." /\
  filteredProducts
    (exec (fetchProducts (Throw NetworkError)) (mount (num := float)))
  = [].
Proof.
  apply (fetchProducts_failure_message (Throw NetworkError) mount).
  reflexivity.
Defined.

(** The body of the first response has no list; the user then types. *)
Lemma failed_fetch_screen_witness :
  body (render (typing ["p"; "ph"]
                       (exec (fetchProducts (reply None)) (mount (num := float)))))
  = ErrorText "No products found.".
Proof.
  apply (failed_fetch_screen (reply None) ["p"; "ph"] mount). reflexivity.
Defined.

Lemma empty_list_screen_witness :
  body (render (exec (fetchProducts (reply (Some []))) (mount (num := float))))
  = ErrorText "No products found." /\
  body (render (exec (fetchProducts (reply None)) (mount (num := float))))
  = ErrorText "No products found.".
Proof. apply (empty_list_screen mount). reflexivity. Defined.
End Witnesses.

Section AppContentWitnesses.
Import AppContent.

(** A reload that fails, then one that brings the three sample items. *)
Lemma fetchPosts_supersedes_witness :
  exec (fetchPosts (reply (Some phones)))
       (exec (fetchPosts (Throw NetworkError)) mount)
  = exec (fetchPosts (reply (Some phones))) mount.
Proof.
  apply (fetchPosts_supersedes (Throw NetworkError) (reply (Some phones)) mount).
  reflexivity.
Defined.

(** A request fails; two more are started; the second of them settles with
    the three sample items, the user types, and the first of them settles
    with a body without a list. *)
Lemma last_success_stays_witness :
  posts (run ([Press; Settle (Throw NetworkError); Press; Press]
              ++ Settle (reply (Some phones))
              :: [ChangeText "phone"; Settle (reply None)]) mount)
  = firstn 30 phones.
Proof.
  apply (last_success_stays [Press; Settle (Throw NetworkError); Press; Press]
           [ChangeText "phone"; Settle (reply None)] phones mount).
  repeat constructor.
Defined.

(** One request is rejected, the other brings the three sample items. *)
Lemma overlapping_reloads_witness :
  run [Press; Press; Settle (reply (Some phones)); Settle (Throw NetworkError)]
      mount
  = {| posts := firstn 30 phones;
       search := "";
       loading := false;
       error := Some "Failed to fetch products. Please try again." |} /\
  run [Press; Press; Settle (Throw NetworkError); Settle (reply (Some phones))]
      mount
  = {| posts := firstn 30 phones;
       search := "";
       loading := false;
       error := Some "Failed to fetch products. Please try again." |}.
Proof.
  apply (overlapping_reloads (Throw NetworkError) phones mount). reflexivity.
Defined.

(** The three sample items are stored and the body of the reload is not
    JSON. *)
Lemma failed_reload_screen_witness :
  render (exec (handleReload (Ok {| json := Throw SyntaxError |}))
               (exec (setPosts phones) mount))
  = {| searchBar := "";
       banner := ErrorLine "Failed to fetch products. Please try again.";
       main := PostsListWith "" phones |}.
Proof.
  apply (failed_reload_screen (Ok {| json := Throw SyntaxError |})
           (exec (setPosts phones) mount)).
  reflexivity.
Defined.
End AppContentWitnesses.


(** * The claims on every input *)

(** ** The filter on lists that may hold items without a title *)

Section FilterEveryList.
Context {num : Type} {CM : CaseMapping}.
Import PostsList.


Lemma searchResult_throws (items : list (Product num)) (query : string) :
  query <> "" -> Exists (fun item => title item = None) items ->
  searchResult items query = Throw TypeError.
Proof.
  intros Hq Hex. rewrite searchResult_eq.
  apply String.eqb_neq in Hq. rewrite Hq.
  apply Array_filter_throws.
  - intros x e'. unfold title_includes.
    destruct (title x); [discriminate | intros H; inversion H; reflexivity].
  - apply Exists_exists in Hex as (x & Hin & Hx). exists x.
    split; [exact Hin|]. unfold title_includes. now rewrite Hx.
Qed.

(** C5, as amended: on a list whose items all have a title the filter
    returns a list; every item of it has a name whose lower-case form
    contains the lower-case form of the query; and for a query that is not
    empty every item of the input with such a name is in the result. On a
    list with an item without a title and a query that is not empty the
    filter throws a TypeError: no list is returned and no item shown. *)
Theorem filter_keeps_matching_names (items : list (Product num)) (query : string) :
  (Forall titled items ->
   exists shown,
     searchResult items query = Ok shown /\
     (forall item, In item shown -> name_contains query item) /\
     (query <> "" ->
      forall item, In item items -> name_contains query item -> In item shown)) /\
  (query <> "" -> Exists (fun item => title item = None) items ->
   searchResult items query = Throw TypeError).
Proof.
  split; [|apply searchResult_throws].
  intros Ht. destruct (searchResult_completes items query Ht) as [shown Hs].
  exists shown. split; [exact Hs|]. rewrite searchResult_eq in Hs.
  destruct (String.eqb query "") eqn:E.
  - apply String.eqb_eq in E. subst query. inversion Hs; subst shown. split.
    + intros item Hin. rewrite Forall_forall in Ht.
      specialize (Ht item Hin). unfold titled in Ht. unfold name_contains.
      destruct (title item) as [t|]; [|congruence].
      exists t. split; [reflexivity|]. rewrite toLowerCase_empty.
      exists "", (toLowerCase t). reflexivity.
    + intros Hq. congruence.
  - pose proof (Array_filter_In _ _ _ Hs) as Hin. split.
    + intros item Hi. apply title_includes_true. apply Hin. exact Hi.
    + intros _ item Hi Hn. apply Hin. split; [exact Hi|].
      apply title_includes_true. exact Hn.
Qed.




End FilterEveryList.

Section FilterEveryListSamples.
Import PostsList.
#[local] Existing Instance AsciiCase.

(** C5, counterexample: an item without a title in front of the three
    sample items, and the query "phone". "iPhone 9" is in the list and its
    name contains the query, but the filter returns no list that holds
    it. *)
Lemma matching_item_not_shown :
  In (named "iPhone 9") (unnamed :: phones) /\
  name_contains "phone" (named "iPhone 9") /\
  ~ (exists shown,
        searchResult (unnamed :: phones) "phone" = Ok shown /\
        In (named "iPhone 9") shown).
Proof.
  split; [right; left; reflexivity|]. split.
  - exists "iPhone 9". split; [reflexivity|]. exists "i", " 9". reflexivity.
  - intros (shown & H & _). discriminate.
Qed.

(** The three titled items; and with an untitled one in front. *)
Lemma filter_keeps_matching_names_witness :
  (exists shown,
      searchResult phones "phone" = Ok shown /\
      (forall item, In item shown -> name_contains "phone" item) /\
      ("phone" <> "" ->
       forall item, In item phones -> name_contains "phone" item ->
                    In item shown)) /\
  searchResult (unnamed :: phones) "phone" = Throw TypeError.
Proof.
  split.
  - apply (proj1 (filter_keeps_matching_names phones "phone")).
    exact phones_titled.
  - apply (proj2 (filter_keeps_matching_names (unnamed :: phones) "phone")).
    + discriminate.
    + constructor. reflexivity.
Defined.






End FilterEveryListSamples.

(** ** The fetches on a body of any shape *)

Section WireFetch.
Context {num : Type}.

(** On a body of the declared shape the fetches on the wire do what the
    components above do. *)
Lemma fetchProducts_on_wire (code : nat) (net : Fetched num)
  (st : PostsList.State num) :
  exec (Wire.PostsList.fetchProducts (wire_fetched code net))
       (wire_list_state st)
  = wire_list_state (exec (PostsList.fetchProducts net) st).
Proof. destruct st, net as [[[[[[items|]]|]|e']]|e]; reflexivity. Qed.

Lemma fetchPosts_on_wire (code : nat) (net : Fetched num)
  (st : AppContent.State num) :
  exec (Wire.AppContent.fetchPosts (wire_fetched code net))
       (wire_screen_state st)
  = wire_screen_state (exec (AppContent.fetchPosts net) st).
Proof. destruct st, net as [[[[[[items|]]|]|e']]|e]; reflexivity. Qed.

(** C1, as amended: when the request is rejected, the body is not JSON, the
    body is [null] or the body has no [products] field, both components
    leave the stored list as it was and set the error message to a string,
    from every state. A [products] field that is there is not checked for
    its shape, and the status code is not read: [fetchProducts] stores any
    truthy value, with the error message as it was, and takes a falsy one
    for a failure; [fetchPosts] stores the first 30 elements or characters
    of any array or string, with no error message, and takes any other
    value for a failure. *)
Theorem fetch_without_list_keeps_store (net : Wire.Fetched num)
  (st : Wire.PostsList.State num) (st' : Wire.AppContent.State num) :
  (Wire.no_list net = true ->
   (Wire.PostsList.products (exec (Wire.PostsList.fetchProducts net) st)
    = Wire.PostsList.products st /\
    exists message,
      Wire.PostsList.error (exec (Wire.PostsList.fetchProducts net) st)
      = Some message) /\
   (Wire.AppContent.posts (exec (Wire.AppContent.fetchPosts net) st')
    = Wire.AppContent.posts st' /\
    exists message,
      Wire.AppContent.error (exec (Wire.AppContent.fetchPosts net) st')
      = Some message)) /\
  (forall (code : nat) (v : Wire.value num),
      if Wire.truthy_value v
      then
        Wire.PostsList.products
          (exec (Wire.PostsList.fetchProducts (Wire.body code v)) st) = v /\
        Wire.PostsList.filteredProducts
          (exec (Wire.PostsList.fetchProducts (Wire.body code v)) st) = v /\
        Wire.PostsList.error
          (exec (Wire.PostsList.fetchProducts (Wire.body code v)) st)
        = Wire.PostsList.error st
      else
        Wire.PostsList.products
          (exec (Wire.PostsList.fetchProducts (Wire.body code v)) st)
        = Wire.PostsList.products st /\
        exists message,
          Wire.PostsList.error
            (exec (Wire.PostsList.fetchProducts (Wire.body code v)) st)
          = Some message) /\
  (forall (code : nat) (v : Wire.value num),
      match Wire.slice v with
      | Ok sliced =>
          Wire.AppContent.posts
            (exec (Wire.AppContent.fetchPosts (Wire.body code v)) st')
          = sliced /\
          Wire.AppContent.error
            (exec (Wire.AppContent.fetchPosts (Wire.body code v)) st')
          = None
      | Throw _ =>
          Wire.AppContent.posts
            (exec (Wire.AppContent.fetchPosts (Wire.body code v)) st')
          = Wire.AppContent.posts st' /\
          exists message,
            Wire.AppContent.error
              (exec (Wire.AppContent.fetchPosts (Wire.body code v)) st')
            = Some message
      end).
Proof.
  split; [|split].
  - unfold Wire.no_list. intros H.
    destruct net as [[code [[[v]|]|e']]|e]; try destruct v; try discriminate;
      (split; (split; [reflexivity | eexists; reflexivity])).
  - intros code v. unfold exec, Wire.body, Wire.PostsList.fetchProducts,
      try_catch, bind, await, Wire.PostsList.data_products. cbn.
    destruct (Wire.truthy_value v); cbn.
    + repeat split.
    + split; [reflexivity | eexists; reflexivity].
  - intros code v. unfold exec, Wire.body, Wire.AppContent.fetchPosts,
      try_finally, try_catch, bind, await. cbn.
    destruct (Wire.slice v); cbn.
    + split; reflexivity.
    + split; [reflexivity | eexists; reflexivity].
Qed.
End WireFetch.

(** C1, counterexample: both stores hold the three sample items and the
    reply is a body whose [products] field is the string "oops". Neither
    component sets an error message, and both replace the list by the
    string. *)
Lemma wrong_shape_is_stored :
  Wire.PostsList.products
    (exec (Wire.PostsList.fetchProducts (Wire.body 200 (Wire.Text "oops")))
          (wire_list_state (exec (PostsList.setProducts phones) PostsList.mount)))
  = Wire.Text "oops" /\
  Wire.PostsList.error
    (exec (Wire.PostsList.fetchProducts (Wire.body 200 (Wire.Text "oops")))
          (wire_list_state (exec (PostsList.setProducts phones) PostsList.mount)))
  = None /\
  Wire.AppContent.posts
    (exec (Wire.AppContent.fetchPosts (Wire.body 200 (Wire.Text "oops")))
          (wire_screen_state
             (exec (AppContent.setPosts phones) AppContent.mount)))
  = Wire.Text "oops" /\
  Wire.AppContent.error
    (exec (Wire.AppContent.fetchPosts (Wire.body 200 (Wire.Text "oops")))
          (wire_screen_state
             (exec (AppContent.setPosts phones) AppContent.mount)))
  = None.
Proof. repeat split. Qed.

(** A reply with status 500 whose body has a list replaces both stores. *)
Example failure_status_is_not_read :
  Wire.PostsList.products
    (exec (Wire.PostsList.fetchProducts (Wire.body 500 (Wire.Items [unnamed])))
          (wire_list_state (exec (PostsList.setProducts phones) PostsList.mount)))
  = Wire.Items [unnamed] /\
  Wire.AppContent.posts
    (exec (Wire.AppContent.fetchPosts (Wire.body 500 (Wire.Items [unnamed])))
          (wire_screen_state
             (exec (AppContent.setPosts phones) AppContent.mount)))
  = Wire.Items [unnamed].
Proof. split; reflexivity. Qed.

(** Both stores hold the three sample items and the request does not
    complete. *)
Lemma fetch_without_list_keeps_store_witness :
  Wire.no_list (Throw NetworkError : Wire.Fetched float) = true /\
  (Wire.PostsList.products
     (exec (Wire.PostsList.fetchProducts (Throw NetworkError))
           (wire_list_state
              (exec (PostsList.setProducts phones) PostsList.mount)))
   = Wire.Items phones /\
   exists message,
     Wire.PostsList.error
       (exec (Wire.PostsList.fetchProducts (Throw NetworkError))
             (wire_list_state
                (exec (PostsList.setProducts phones) PostsList.mount)))
     = Some message) /\
  (Wire.AppContent.posts
     (exec (Wire.AppContent.fetchPosts (Throw NetworkError))
           (wire_screen_state
              (exec (AppContent.setPosts phones) AppContent.mount)))
   = Wire.Items phones /\
   exists message,
     Wire.AppContent.error
       (exec (Wire.AppContent.fetchPosts (Throw NetworkError))
             (wire_screen_state
                (exec (AppContent.setPosts phones) AppContent.mount)))
     = Some message).
Proof.
  split; [reflexivity|].
  apply (proj1 (fetch_without_list_keeps_store
                  (Throw NetworkError)
                  (wire_list_state
                     (exec (PostsList.setProducts phones) PostsList.mount))
                  (wire_screen_state
                     (exec (AppContent.setPosts phones) AppContent.mount)))).
  reflexivity.
Defined.

(** ** The discounted price in binary64 *)

Section DiscountBinary64.
Import PostsList.






End DiscountBinary64.


